(** * RagAgent.ipynb: the recorded notebook and what its cells show

    The repository holds one Jupyter notebook, [docs/notebooks/RagAgent.ipynb]
    (nbformat 4.2).  The notebook is embedded below cell by cell as the JSON
    has it: every [source], [text] and [text/markdown] array is a list of
    lines, a line keeping its trailing newline where the JSON string has one.
    The properties proved afterwards are stated over that value. *)

From Stdlib Require Import String Ascii List Bool Arith Lia Sorted.
Import ListNotations.
Open Scope list_scope.
Open Scope string_scope.

(** ** Characters the JSON escapes *)

(** line feed, written \n in the JSON *)
Definition nl : string := String (ascii_of_nat 10) EmptyString.
(** the double quote, escaped in the JSON *)
Definition dq : string := String (ascii_of_nat 34) EmptyString.
(** the escape character, written \u001b in the JSON *)
Definition esc : string := String (ascii_of_nat 27) EmptyString.

(** A line that ends in a line feed. *)
Definition ln (s : string) : string := s ++ nl.

(** ** The nbformat 4 data model (the keys the notebook uses) *)

(** A "multiline string" of nbformat: an array of strings to be joined. *)
Definition multiline := list string.

(** A mime bundle: mime type to content, in the order of the JSON object. *)
Definition mimebundle := list (string * multiline).

Inductive output : Type :=
| stream (name : string) (text : multiline)
| display_data (data : mimebundle).

Inductive cell : Type :=
| markdown (source : multiline)
| code (execution_count : option nat) (outputs : list output) (source : multiline).

Record kernelspec_t : Type :=
  { display_name : string; language : string; name : string }.

Record language_info_t : Type :=
  { codemirror_mode : string * nat;
    file_extension : string;
    mimetype : string;
    li_name : string;
    nbconvert_exporter : string;
    pygments_lexer : string;
    version : string }.

Record metadata_t : Type :=
  { kernelspec : kernelspec_t; language_info : language_info_t }.

Record notebook : Type :=
  { cells : list cell;
    metadata : metadata_t;
    nbformat : nat;
    nbformat_minor : nat }.

(** ** The cells of RagAgent.ipynb, in document order *)

Definition cell_0 : cell :=
  markdown
    [ "# Example Notebook for RAG (Retrieval-Augmented Generation) Agent Usage" ].

Definition cell_1 : cell :=
  markdown
    [ "### Query the RAG agent using the cell magic `%%ask` command" ].

Definition cell_2 : cell :=
  code (Some 16)
    []
    [ ln "# %load_ext msticpy.aiagents.mp_docs_rag_magic";
      ln "# Or use:";
      "%reload_ext msticpy.aiagents.mp_docs_rag_magic" ].

Definition cell_3 : cell :=
  code (Some 2)
    [ stream "stderr"
        [ ln ("2024-07-30 15:48:19,414 - autogen.agentchat.contrib.retrieve_user_proxy_agent - INFO - " ++ esc ++ "[32mUse the existing collection `MSTICpy_Docs_2.12.0`." ++ esc ++ "[0m");
          ln ("2024-07-30 15:48:27,518 - autogen.agentchat.contrib.retrieve_user_proxy_agent - INFO - Found 384 chunks." ++ esc ++ "[0m") ];
      display_data
        [ ("text/markdown",
         [ nl;
           "**Question**: What are the three things that I need to connect to Microsoft Sentinel Query Provider?" ]) ];
      display_data
        [ ("text/markdown",
         [ nl;
           ln "**Answer**: To connect to the Microsoft Sentinel Query Provider, you need the following three things:";
           nl;
           ln "1. A `QueryProvider` instance.";
           ln ("2. The data environment string (" ++ dq ++ "MSSentinel" ++ dq ++ " for Microsoft Sentinel).");
           ln "3. A connection string or authentication parameters.";
           nl;
           "Sources: C:\Users\t-egarcia\Documents\Forked MSTICpy Repo\msticpy\docs\source\data_acquisition\DataProviders.rst" ]) ] ]
    [ ln "%%ask ";
      "What are the three things that I need to connect to Microsoft Sentinel Query Provider?" ].

Definition cell_4 : cell :=
  code (Some 3)
    [ display_data
        [ ("text/markdown",
         [ nl;
           "**Question**: How do I connect to the M365 Defender query provider?" ]) ];
      display_data
        [ ("text/markdown",
         [ nl;
           ln "**Answer**: To connect to the M365 Defender query provider, you need to follow these steps:";
           nl;
           ln "1. Ensure your connection details are specified in the `msticpyconfig.yaml` file.";
           nl;
           ln "2. Create a `QueryProvider` instance for M365 Defender.";
           nl;
           ln "3. Call the `connect()` method on the instance.";
           nl;
           ln "Here's an example:";
           nl;
           ln "```python";
           ln "from msticpy.data import QueryProvider";
           nl;
           ln "# Create a QueryProvider instance";
           ln ("mdatp_prov = QueryProvider(" ++ dq ++ "M365D" ++ dq ++ ")");
           nl;
           ln "# Connect to the M365 Defender instance using the configured details";
           ln "mdatp_prov.connect()";
           ln "```";
           nl;
           ln "If you have multiple instances configured, specify the instance name when calling `connect()`:";
           nl;
           ln "```python";
           ln ("mdatp_prov.connect(instance=" ++ dq ++ "Tenant2" ++ dq ++ ")");
           ln "```";
           nl;
           ln "If you prefer to pass connection parameters directly, use keyword arguments:";
           nl;
           ln "```python";
           ln "# Collect credentials";
           ln "ten_id = input('Tenant ID')";
           ln "client_id = input('Client ID')";
           ln "client_secret = input('Client Secret')";
           nl;
           ln "# Create a QueryProvider instance";
           ln "mdatp_prov = QueryProvider('M365D')";
           nl;
           ln "# Connect using collected credentials";
           ln "mdatp_prov.connect(tenant_id=ten_id, client_id=client_id, client_secret=client_secret)";
           ln "```";
           nl;
           ln "Alternatively, you can use a connection string:";
           nl;
           ln "```python";
           ln "# Define a connection string";
           ln "conn_str = (";
           ln ("    " ++ dq ++ "tenant_id='243bb6be-4136-4b64-9055-fb661594199a'; " ++ dq);
           ln ("    " ++ dq ++ "client_id='a5b24e23-a96a-4472-b729-9e5310c83e20'; " ++ dq);
           ln ("    " ++ dq ++ "client_secret='[PLACEHOLDER]'" ++ dq);
           ln ")";
           nl;
           ln "# Create a QueryProvider instance";
           ln "mdatp_prov = QueryProvider('M365D')";
           nl;
           ln "# Connect using the connection string";
           ln "mdatp_prov.connect(conn_str)";
           ln "```";
           nl;
           "Sources: C:\Users\t-egarcia\Documents\Forked MSTICpy Repo\msticpy\docs\source\data_acquisition\DataProv-MSDefender.rst" ]) ] ]
    [ ln "%%ask";
      "How do I connect to the M365 Defender query provider?" ].

Definition cell_5 : cell :=
  code (Some 4)
    [ display_data
        [ ("text/markdown",
         [ nl;
           "**Question**: What do I need to add to my msticpyconfig.yaml config for the Azure Resource Graph query provider?" ]) ];
      display_data
        [ ("text/markdown",
         [ nl;
           ln "**Answer**: To add Azure Resource Graph to your `msticpyconfig.yaml` configuration, include the following under the `Azure` section:";
           nl;
           ln "```yaml";
           ln "Azure:";
           ln "  auth_methods:";
           ln "  - cli";
           ln "  - interactive";
           ln "  cloud: global";
           ln "```";
           nl;
           ln "For more information on configuring `msticpyconfig.yaml`, refer to the MSTICPy documentation.";
           nl;
           "Sources: C:\Users\t-egarcia\Documents\Forked MSTICpy Repo\msticpy\docs\source\data_acquisition\ResourceGraphDriver.rst" ]) ] ]
    [ ln "%%ask";
      "What do I need to add to my msticpyconfig.yaml config for the Azure Resource Graph query provider?" ].

Definition cell_6 : cell :=
  markdown
    [ "#### A response of `UPDATE_CONTEXT` indicates that the agents are unable to answer the query with the information retrieved by the RAG agent." ].

Definition cell_7 : cell :=
  code (Some 5)
    [ display_data
        [ ("text/markdown",
         [ nl;
           "**Question**: Does the Splunk query provider support device code authentication?" ]) ];
      display_data
        [ ("text/markdown",
         [ nl;
           "**Answer**: UPDATE CONTEXT" ]) ] ]
    [ ln "%%ask";
      "Does the Splunk query provider support device code authentication?" ].

Definition cell_8 : cell :=
  code (Some 6)
    [ display_data
        [ ("text/markdown",
         [ nl;
           "**Question**: How can I plot IP addresses in this dataframe on a map?" ]) ];
      display_data
        [ ("text/markdown",
         [ nl;
           ln "**Answer**: To plot IP addresses in a DataFrame on a map using MSTICpy's FoliumMap, you can use the `mp_plot.folium_map` pandas accessor. Here's an example:";
           nl;
           ln "```python";
           ln "# Plotting IP addresses using the mp_plot.folium_map accessor";
           ln ("geo_loc_df.mp_plot.folium_map(ip_column=" ++ dq ++ "IPAddress" ++ dq ++ ")");
           ln "```";
           nl;
           ln ("This will display an interactive map with markers based on the IP addresses in the " ++ dq ++ "IPAddress" ++ dq ++ " column of your DataFrame.");
           nl;
           "Sources: C:\\Users\\t-egarcia\\Documents\\Forked MSTICpy Repo\\msticpy\\docs\\source\\visualization\\FoliumMap.rst" ]) ] ]
    [ ln "%%ask ";
      "How can I plot IP addresses in this dataframe on a map?" ].

Definition cell_9 : cell :=
  code (Some 7)
    [ display_data
        [ ("text/markdown",
         [ nl;
           "**Question**: How do I create a new custom data provider with msticpy?" ]) ];
      display_data
        [ ("text/markdown",
         [ nl;
           ln "**Answer**: To create a new custom data provider with MSTICpy, follow these main steps:";
           nl;
           ln "1. **Write the driver class:** Derive it from `DriverBase` and implement the methods `__init__`, `connect`, `query`, and optionally `query_with_results`.";
           ln "2. **Customize the driver (optional):** Expose attributes via `QueryProvider`, and implement custom parameter formatting and query parameter substitution if needed.";
           ln "3. **Register the driver:** Update the `DataEnvironment` enum and add an entry to the driver dynamic load table.";
           ln "4. **Add queries:** Create a folder named after your `DataEnvironment` and add your query files there.";
           ln "5. **Add settings definition:** Define settings in a YAML configuration file.";
           ln "6. **Create documentation:** Document the configuration and use of the data provider.";
           ln "7. **Create unit tests:** Add unit tests using mocks to simulate service responses.";
           nl;
           ln "For detailed guidance on these steps, refer to the provided MSTICpy documentation related to data providers.";
           nl;
           "Sources: WritingDataProviders.rst, PluginFramework.rst, ExtendingMsticpy.rst" ]) ] ]
    [ ln "%%ask ";
      "How do I create a new custom data provider with msticpy?" ].

Definition cell_10 : cell :=
  code (Some 9)
    [ display_data
        [ ("text/markdown",
         [ nl;
           "**Question**: How do I list which TI providers are currently enabled?" ]) ];
      display_data
        [ ("text/markdown",
         [ nl;
           ln "**Answer**: ### Step 1: Intent";
           ln "The user's intent is to get help with **question answering**.";
           nl;
           ln "### Step 2: Answer";
           ln "To list which Threat Intelligence (TI) providers are currently enabled in MSTICpy, you can inspect the configuration typically found in the `msticpyconfig.yaml` file under the `TIProviders` section. This configuration file determines which providers are set up and whether they are marked as primary/secondary.";
           nl;
           "Sources: `C:\\Users\\t-egarcia\\Documents\\Forked MSTICpy Repo\\msticpy\\docs\\source\\extending\\WritingTIAndContextProviders.rst`" ]) ] ]
    [ ln "%%ask ";
      "How do I list which TI providers are currently enabled?" ].

Definition cell_11 : cell :=
  code (Some 10)
    [ display_data
        [ ("text/markdown",
         [ nl;
           "**Question**: How do I lookup threat intelligence for multiple IP addresses at once?" ]) ];
      display_data
        [ ("text/markdown",
         [ nl;
           ln "**Answer**: Step 1: User's intent is to generate code for performing threat intelligence lookups for multiple IP addresses at once.";
           nl;
           ln "Step 2:";
           ln "```python";
           ln "from msticpy.context.ip_utils import ip_whois";
           nl;
           ln "# List of IP addresses to lookup";
           ln ("ip_list = [" ++ dq ++ "123.1.2.3" ++ dq ++ ", " ++ dq ++ "124.5.6.7" ++ dq ++ "]");
           nl;
           ln "# Performing Whois lookup for multiple IP addresses";
           ln "whois_data = ip_whois(ip_list)";
           ln "print(whois_data)";
           ln "```";
           nl;
           "Sources: C:\Users\t-egarcia\Documents\Forked MSTICpy Repo\msticpy\docs\source\data_acquisition\IPWhois.rst" ]) ] ]
    [ ln "%%ask ";
      "How do I lookup threat intelligence for multiple IP addresses at once?" ].

Definition cell_12 : cell :=
  code (Some 11)
    [ display_data
        [ ("text/markdown",
         [ nl;
           "**Question**: How do I use pivot functions?" ]) ];
      display_data
        [ ("text/markdown",
         [ nl;
           ln "**Answer**: To use pivot functions in MSTICpy, you have two primary options: creating persistent pivot function definitions in YAML files or adding ad hoc pivot functions directly in code. Here's a brief overview of both methods:";
           nl;
           ln "**1. Persistent Pivot Function Definitions**";
           nl;
           ln "- Define your pivot function properties in a YAML file with a top-level element `pivot_providers`.";
           ln "- Example YAML definition:";
           nl;
           ln "```yaml";
           ln "pivot_providers:";
           ln "  who_is:";
           ln "    src_module: msticpy.context.ip_utils";
           ln "    src_func_name: get_whois_df";
           ln "    func_new_name: whois";
           ln "    input_type: dataframe";
           ln "    entity_map:";
           ln "      IpAddress: Address";
           ln "    func_df_param_name: data";
           ln "    func_df_col_param_name: ip_column";
           ln "    func_out_column_name: query";
           ln "    func_static_params:";
           ln "      all_columns: True";
           ln "      show_progress: False";
           ln "    func_input_value_arg: ip_address";
           ln "```";
           nl;
           ln "- Load and register the definition using:";
           nl;
           ln "```python";
           ln "from msticpy.init.pivot_core.pivot import Pivot";
           ln ("Pivot.register_pivot_providers(pivot_reg_path=path_to_your_yaml, namespace=globals(), def_container=" ++ dq ++ "my_container" ++ dq ++ ", force_container=True)");
           ln "```";
           nl;
           ln "**2. Ad Hoc Pivot Functions in Code**";
           nl;
           ln "- Add a function as a pivot using the `add_pivot_function` method:";
           nl;
           ln "```python";
           ln "def my_func(input: str):";
           ln "    return input.upper()";
           nl;
           ln "Pivot.add_pivot_function(";
           ln "    func=my_func,";
           ln ("    container=" ++ dq ++ "change_case" ++ dq ++ ",");
           ln ("    input_type=" ++ dq ++ "value" ++ dq ++ ",");
           ln ("    entity_map={" ++ dq ++ "Host" ++ dq ++ ": " ++ dq ++ "HostName" ++ dq ++ "},");
           ln ("    func_input_value_arg=" ++ dq ++ "input" ++ dq ++ ",");
           ln ("    func_new_name=" ++ dq ++ "upper_name" ++ dq ++ ",");
           ln ")";
           ln "```";
           nl;
           ln "- Alternatively, use the `PivotRegistration` class:";
           nl;
           ln "```python";
           ln "from msticpy.init.pivot_core.pivot_register import PivotRegistration";
           nl;
           ln "def my_func(input: str):";
           ln "    return input.upper()";
           nl;
           ln "piv_reg = PivotRegistration(";
           ln ("    input_type=" ++ dq ++ "value" ++ dq ++ ",");
           ln ("    entity_map={" ++ dq ++ "Host" ++ dq ++ ": " ++ dq ++ "HostName" ++ dq ++ "},");
           ln ("    func_input_value_arg=" ++ dq ++ "input" ++ dq ++ ",");
           ln ("    func_new_name=" ++ dq ++ "upper_name" ++ dq);
           ln ")";
           ln ("Pivot.add_pivot_function(my_func, piv_reg, container=" ++ dq ++ "change_case" ++ dq ++ ")");
           ln "```";
           nl;
           ln "**Running Pivots in DataFrame Pipelines:**";
           nl;
           ln "```python";
           ln "(";
           ln "    my_df";
           ln ("    .query(" ++ dq ++ "UserCount > 1" ++ dq ++ ")");
           ln ("    .mp_pivot.run(IpAddress.util.whois, column=" ++ dq ++ "Ioc" ++ dq ++ ")");
           ln "    .drop_duplicates()";
           ln ")";
           ln "```";
           nl;
           ln "- Use `mp_pivot.run` to integrate pivot functions into DataFrame processing pipelines.";
           ln "- Join input and output DataFrames with the `join` parameter in `mp_pivot.run`.";
           nl;
           ln "**Debugging Tools:**";
           nl;
           ln "- `mp_pivot.display` for intermediate results.";
           ln "- `mp_pivot.tee` for creating snapshots.";
           ln "- `mp_pivot.tee_exec` for executing intermediate operations (e.g., plotting).";
           nl;
           "Sources: C:\\Users\\t-egarcia\\Documents\\Forked MSTICpy Repo\\msticpy\\docs\\source\\extending\\PivotFunctions.rst, C:\\Users\\t-egarcia\\Documents\\Forked MSTICpy Repo\\msticpy\\docs\\source\\data_analysis\\PivotFunctions.rst, C:\\Users\\t-egarcia\\Documents\\Forked MSTICpy Repo\\msticpy\\docs\\source\\api\\msticpy.init.pivot.rst" ]) ] ]
    [ ln "%%ask ";
      "How do I use pivot functions?" ].

Definition cell_13 : cell :=
  code (Some 12)
    [ display_data
        [ ("text/markdown",
         [ nl;
           "**Question**: Which columns do I need in a dataframe to plot process trees?" ]) ];
      display_data
        [ ("text/markdown",
         [ nl;
           ln "**Answer**: To plot process trees, the required columns in a DataFrame are typically:";
           nl;
           ln "1. `ParentProcessName`";
           ln "2. `Process`";
           nl;
           ln "Additional attributes such as `SubjectUserName`, `SubjectDomainName`, `SubjectLogonId`, `NewProcessName`, `CommandLine`, and `TimeGenerated` can be used for more detailed visualization and analysis.";
           nl;
           "Sources: C:\Users\t-egarcia\Documents\Forked MSTICpy Repo\msticpy\docs\source\visualization\NetworkGraph.rst" ]) ] ]
    [ ln "%%ask ";
      "Which columns do I need in a dataframe to plot process trees?" ].

Definition cell_14 : cell :=
  code (Some 13)
    [ display_data
        [ ("text/markdown",
         [ nl;
           "**Question**: What kind of visualizations does msticpy support?" ]) ];
      display_data
        [ ("text/markdown",
         [ nl;
           ln "**Answer**: MSTICPy supports various visualizations including interactive timelines, process trees, multi-dimensional Morph Charts, data viewers, matrix plots, network plots, and several others listed under the `msticpy.vis` package.";
           nl;
           "Sources: C:\Users\t-egarcia\Documents\Forked MSTICpy Repo\msticpy\docs\source\index.rst, C:\Users\t-egarcia\Documents\Forked MSTICpy Repo\msticpy\docs\source\visualization\MorphCharts.rst" ]) ] ]
    [ ln "%%ask ";
      "What kind of visualizations does msticpy support?" ].

Definition cell_15 : cell :=
  code (Some 14)
    [ display_data
        [ ("text/markdown",
         [ nl;
           "**Question**: How do I add a new query for Microsoft 365 Defender to msticpy?" ]) ];
      display_data
        [ ("text/markdown",
         [ nl;
           ln "**Answer**: To add a new query for Microsoft 365 Defender (M365D) to MSTICPy, you should use the `QueryProvider` class. Here's a step-by-step guide on how to achieve it:";
           nl;
           ln "1. **Initialize the `QueryProvider` for M365D**:";
           ln "   ```python";
           ln "   from msticpy.data import QueryProvider";
           nl;
           ln ("   mdatp_prov = QueryProvider(" ++ dq ++ "M365D" ++ dq ++ ")");
           ln "   ```";
           nl;
           ln "2. **Connect to the M365 Defender API**:";
           ln "   ```python";
           ln "   mdatp_prov.connect()";
           ln "   ```";
           nl;
           ln "3. **Add your new query**:";
           ln "   You can add new queries to the query store of `QueryProvider`. Here’s an example of how to define and add a new query:";
           ln "   ```python";
           ln ("   new_query = " ++ dq ++ dq ++ dq);
           ln "   DeviceEvents";
           ln ("   | where ActionType == " ++ dq ++ "FileCreated" ++ dq);
           ln "   | limit 10";
           ln ("   " ++ dq ++ dq ++ dq);
           ln ("   mdatp_prov.add_query(" ++ dq ++ "GetRecentFileCreatedEvents" ++ dq ++ ", new_query)");
           ln "   ```";
           nl;
           ln "4. **Run the newly added query**:";
           ln "   ```python";
           ln ("   results = mdatp_prov.exec_query(" ++ dq ++ "GetRecentFileCreatedEvents" ++ dq ++ ")");
           ln "   print(results)";
           ln "   ```";
           nl;
           ln "In summary, you need to instantiate a `QueryProvider` object for M365D, connect to the API, add the new query, and then execute the query.";
           nl;
           "Sources: C:\Users\t-egarcia\Documents\Forked MSTICpy Repo\msticpy\docs\source\data_acquisition\DataProv-MSDefender.rst" ]) ] ]
    [ ln "%%ask ";
      "How do I add a new query for Microsoft 365 Defender to msticpy?" ].

Definition cell_16 : cell :=
  code (Some 15)
    [ display_data
        [ ("text/markdown",
         [ nl;
           "**Question**: Which msticpy module contains the code related to visualizing network graphs?" ]) ];
      display_data
        [ ("text/markdown",
         [ nl;
           ln "**Answer**: The MSTICpy module that contains the code related to visualizing network graphs is `msticpy.vis.network_plot`.";
           nl;
           "Sources: C:\\Users\\t-egarcia\\Documents\\Forked MSTICpy Repo\\msticpy\\docs\\source\\api\\msticpy.vis.network_plot.rst" ]) ] ]
    [ ln "%%ask";
      "Which msticpy module contains the code related to visualizing network graphs?" ].

Definition RagAgent : notebook :=
  {| cells :=
       [ cell_0;
         cell_1;
         cell_2;
         cell_3;
         cell_4;
         cell_5;
         cell_6;
         cell_7;
         cell_8;
         cell_9;
         cell_10;
         cell_11;
         cell_12;
         cell_13;
         cell_14;
         cell_15;
         cell_16 ];
     metadata :=
       {| kernelspec :=
            {| display_name := "internshipenv"; language := "python"; name := "python3" |};
          language_info :=
            {| codemirror_mode := ("ipython", 3);
               file_extension := ".py";
               mimetype := "text/x-python";
               li_name := "python";
               nbconvert_exporter := "python";
               pygments_lexer := "ipython3";
               version := "3.10.14" |} |};
     nbformat := 4;
     nbformat_minor := 2 |}.


(** ** Strings *)

Module Str.

(** [strip_prefix p s] is the rest of [s] after [p] when [s] starts with [p]. *)
Fixpoint strip_prefix (p s : string) : option string :=
  match p, s with
  | EmptyString, _ => Some s
  | String _ _, EmptyString => None
  | String a p', String b s' =>
      if Ascii.eqb a b then strip_prefix p' s' else None
  end.

Definition starts (p s : string) : bool :=
  match strip_prefix p s with Some _ => true | None => false end.

(** [ends suf s]: [s] itself or one of its tails is [suf]. *)
Fixpoint ends (suf s : string) : bool :=
  String.eqb s suf
  || match s with
     | EmptyString => false
     | String _ s' => ends suf s'
     end.

(** Number of positions of [s] at which [pat] starts. *)
Fixpoint occurrences (pat s : string) : nat :=
  (if starts pat s then 1 else 0)
  + match s with
    | EmptyString => 0
    | String _ s' => occurrences pat s'
    end.

(** The text that follows the first occurrence of [pat] in [s]. *)
Fixpoint after (pat s : string) : option string :=
  match strip_prefix pat s with
  | Some r => Some r
  | None =>
      match s with
      | EmptyString => None
      | String _ s' => after pat s'
      end
  end.

Definition is_space (c : ascii) : bool :=
  Ascii.eqb c " " || Ascii.eqb c (ascii_of_nat 9)
  || Ascii.eqb c (ascii_of_nat 10) || Ascii.eqb c (ascii_of_nat 13).

Definition is_backtick (c : ascii) : bool := Ascii.eqb c "`".

(** Python's [str.lstrip], [str.rstrip] and [str.strip] over a class of
    characters. *)
Fixpoint lstrip (f : ascii -> bool) (s : string) : string :=
  match s with
  | EmptyString => EmptyString
  | String c s' => if f c then lstrip f s' else s
  end.

Fixpoint rstrip (f : ascii -> bool) (s : string) : string :=
  match s with
  | EmptyString => EmptyString
  | String c s' =>
      match rstrip f s' with
      | EmptyString => if f c then EmptyString else String c EmptyString
      | r => String c r
      end
  end.

Definition strip (f : ascii -> bool) (s : string) : string :=
  rstrip f (lstrip f s).

(** Python's [str.split(sep)] for a one-character separator. *)
Fixpoint split (sep : ascii) (s : string) : list string :=
  match s with
  | EmptyString => [EmptyString]
  | String c s' =>
      if Ascii.eqb c sep then EmptyString :: split sep s'
      else
        match split sep s' with
        | [] => [String c EmptyString]
        | h :: t => String c h :: t
        end
  end.

(** The properties the boolean tests decide. *)
Definition begins_with (p s : string) : Prop := exists r, s = p ++ r.
Definition ends_with (suf s : string) : Prop := exists r, s = r ++ suf.
Definition contains (pat s : string) : Prop := exists a b, s = a ++ pat ++ b.

End Str.

(** ** Reading the notebook *)

(** A multiline string is the concatenation of its array. *)
Definition join (m : multiline) : string := String.concat "" m.

Definition lines_of (s : string) : list string := Str.split (ascii_of_nat 10) s.

Definition cell_source (c : cell) : multiline :=
  match c with
  | markdown s => s
  | code _ _ s => s
  end.

(** A markdown cell has no [outputs] key. *)
Definition cell_outputs (c : cell) : list output :=
  match c with
  | markdown _ => []
  | code _ o _ => o
  end.

Definition is_code (c : cell) : bool :=
  match c with code _ _ _ => true | markdown _ => false end.

Definition code_cells (nb : notebook) : list cell := filter is_code (cells nb).

Definition execution_counts (nb : notebook) : list (option nat) :=
  flat_map (fun c => match c with code n _ _ => [n] | markdown _ => [] end)
           (cells nb).

Definition is_stream (o : output) : bool :=
  match o with stream _ _ => true | display_data _ => false end.

Definition is_display_data (o : output) : bool :=
  match o with display_data _ => true | stream _ _ => false end.

(** A [display_data] output whose bundle is one [text/markdown] entry. *)
Definition markdown_of (o : output) : option multiline :=
  match o with
  | display_data [(mime, m)] =>
      if String.eqb mime "text/markdown" then Some m else None
  | _ => None
  end.

Definition is_markdown_block (o : output) : bool :=
  match markdown_of o with Some _ => true | None => false end.

Definition output_text (o : output) : string :=
  match o with
  | stream _ t => join t
  | display_data d => join (flat_map snd d)
  end.

Definition cell_output_text (c : cell) : string :=
  join (map output_text (cell_outputs c)).

Definition notebook_output_text (nb : notebook) : string :=
  join (map cell_output_text (cells nb)).

(** *** Magics *)

(** The first line of a cell's source, where a cell magic stands. *)
Definition magic_line (c : cell) : string := hd "" (cell_source c).

(** The text handed to a cell magic: everything after the magic line. *)
Definition ask_body (c : cell) : string := join (tl (cell_source c)).

Definition is_ask (c : cell) : bool :=
  is_code c && String.eqb (Str.rstrip Str.is_space (magic_line c)) "%%ask".

Definition ask_cells (nb : notebook) : list cell := filter is_ask (cells nb).

(** The lines of a Python cell that the kernel runs: comments and blank
    lines left out. *)
Definition is_comment_or_blank (l : string) : bool :=
  let t := Str.strip Str.is_space l in
  String.eqb t "" || Str.starts "#" t.

Definition executable_lines (c : cell) : list string :=
  filter (fun l => negb (is_comment_or_blank l))
         (map (Str.strip Str.is_space) (cell_source c)).

Definition is_extension_load_line (l : string) : bool :=
  Str.starts "%load_ext " l || Str.starts "%reload_ext " l.

Definition loads_extension (c : cell) : bool :=
  is_code c && negb (is_ask c)
  && existsb is_extension_load_line (executable_lines c).

(** The module a load directive names. *)
Definition loaded_module (l : string) : option string :=
  match Str.strip_prefix "%reload_ext " l with
  | Some m => Some m
  | None => Str.strip_prefix "%load_ext " l
  end.



(** *** The Question and Answer blocks of an [%%ask] cell *)

Definition display_blocks (c : cell) : list output :=
  filter is_display_data (cell_outputs c).

Definition markdown_blocks (c : cell) : list multiline :=
  flat_map (fun o => match markdown_of o with Some m => [m] | None => [] end)
           (cell_outputs c).

Definition is_blank (l : string) : bool :=
  String.eqb (Str.strip Str.is_space l) "".

(** Markdown renders nothing for the blank lines a block starts with. *)
Fixpoint drop_blank_lines (m : multiline) : multiline :=
  match m with
  | [] => []
  | l :: m' => if is_blank l then drop_blank_lines m' else m
  end.

Definition rendered (m : multiline) : string := join (drop_blank_lines m).

Definition question_marker : string := "**Question**:".
Definition answer_marker : string := "**Answer**:".

Definition question_block (c : cell) : multiline := nth 0 (markdown_blocks c) [].
Definition answer_block (c : cell) : multiline := nth 1 (markdown_blocks c) [].

(** The text after the marker and the blank that follows it. *)
Definition question_text (c : cell) : option string :=
  Str.after (question_marker ++ " ") (join (question_block c)).

Definition answer_text (c : cell) : option string :=
  Str.after (answer_marker ++ " ") (join (answer_block c)).

(** The sentinel the note above the Splunk question documents. *)
Definition UPDATE_CONTEXT : string := "UPDATE_CONTEXT".

(** *** Citations *)

Definition answer_lines (c : cell) : list string :=
  lines_of (join (answer_block c)).

Definition final_line (c : cell) : string := last (answer_lines c) "".

Definition sources_marker : string := "Sources:".

(** The entries of a [Sources:] line as written: split at commas, blanks
    trimmed. *)
Definition source_entries (l : string) : list string :=
  match Str.strip_prefix sources_marker l with
  | Some r => map (Str.strip Str.is_space) (Str.split "," r)
  | None => []
  end.

(** An entry may be written as a markdown code span; the file it names is the
    text between the backticks. *)
Definition code_span_text (s : string) : string := Str.strip Str.is_backtick s.

Definition cited_files (l : string) : list string :=
  map code_span_text (source_entries l).

(** *** What a code cell does *)

Inductive cell_kind : Type :=
| LoadDirective (module : string)
| AskInvocation (question : string)
| PythonCode.

Definition classify (c : cell) : cell_kind :=
  if is_ask c then AskInvocation (ask_body c)
  else
    match executable_lines c with
    | [l] =>
        match loaded_module l with
        | Some m => LoadDirective m
        | None => PythonCode
        end
    | _ => PythonCode
    end.

(** How a line of Python that defines or computes something starts. *)
Definition python_statement_starts : list string :=
  [ "def "; "class "; "import "; "from "; "lambda "; "for "; "while ";
    "if "; "with "; "try:"; "return "; "async "; "@" ].

Definition is_python_statement (l : string) : bool :=
  existsb (fun k => Str.starts k (Str.lstrip Str.is_space l))
          python_statement_starts.

(** A question in plain words: one non-empty line that ends in a question
    mark. *)
Definition is_free_text_question (q : string) : bool :=
  negb (String.eqb q "")
  && Nat.eqb (Str.occurrences nl q) 0
  && Str.ends "?" q
  && negb (is_python_statement q).

(** *** Execution order *)

(** The pairs of neighbours of a list, in order. *)
Fixpoint adjacent {A : Type} (l : list A) : list (A * A) :=
  match l with
  | a :: (b :: _) as t => (a, b) :: adjacent t
  | _ => []
  end.

Definition count_of (c : cell) : option nat :=
  match c with code n _ _ => n | markdown _ => None end.

(** Every code cell was run, and each one's count is the previous one's plus
    one. *)
Definition executed_sequentially (nb : notebook) : Prop :=
  exists l : list nat,
    execution_counts nb = map Some l
    /\ forall a b, In (a, b) (adjacent l) -> b = S a.

(** The counts of a list of cells, unexecuted ones left out. *)
Definition counts (cs : list cell) : list nat :=
  flat_map (fun c => match count_of c with Some n => [n] | None => [] end) cs.

(** ** Decision procedures for the properties proved below *)

(** Every element of a list but the one at position [k]. *)
Definition others {A : Type} (k : nat) (l : list A) : list A :=
  firstn k l ++ skipn (S k) l.

(** Exactly two [display_data] outputs, markdown both, a Question block and
    then an Answer block, each written as a blank line and then the text that
    is rendered. *)
Definition question_then_answer (c : cell) : bool :=
  match display_blocks c with
  | [o1; o2] =>
      match markdown_of o1, markdown_of o2 with
      | Some q, Some a =>
          String.eqb (join q) (nl ++ rendered q)
          && Str.starts question_marker (rendered q)
          && String.eqb (join a) (nl ++ rendered a)
          && Str.starts answer_marker (rendered a)
      | _, _ => false
      end
  | _ => false
  end.

Definition echoes_question (c : cell) : bool :=
  match question_text c with
  | Some q => String.eqb q (ask_body c)
  | None => false
  end.

Definition cites_only_rst (c : cell) : bool :=
  forallb (fun l => negb (Str.starts sources_marker l)
                    || forallb (Str.ends ".rst") (cited_files l))
          (answer_lines c).

(** Every [Sources:] of an answer stands at the start of a line. *)
Definition sources_at_line_start (c : cell) : bool :=
  Nat.eqb (Str.occurrences sources_marker (join (answer_block c)))
          (length (filter (Str.starts sources_marker) (answer_lines c))).

Definition mentions (pat : string) (o : output) : bool :=
  negb (Nat.eqb (Str.occurrences pat (output_text o)) 0).

Definition silent_about (pat : string) (c : cell) : bool :=
  forallb (fun o => negb (mentions pat o)) (cell_outputs c).

Definition renders_output (c : cell) : bool :=
  match cell_outputs c with [] => false | _ :: _ => true end.

Definition is_load_directive (c : cell) : bool :=
  match classify c with LoadDirective _ => true | _ => false end.

Definition load_or_question (c : cell) : bool :=
  match classify c with
  | LoadDirective _ => true
  | AskInvocation q => is_free_text_question q
  | PythonCode => false
  end.

Definition step_or_gap (p : nat * nat) : bool :=
  let (a, b) := p in
  Nat.eqb b (S a) || (Nat.eqb a 7 && Nat.eqb b 9).

(** ** The layout of the recorded arrays *)

(** Python's [str.splitlines(keepends=True)] for text whose only line break is
    the line feed: the way nbformat writes a multiline string as an array. *)
Fixpoint splitlines_keepends (s : string) : list string :=
  match s with
  | EmptyString => []
  | String c s' =>
      if Ascii.eqb c (ascii_of_nat 10)
      then String c EmptyString :: splitlines_keepends s'
      else
        match splitlines_keepends s' with
        | [] => [String c EmptyString]
        | h :: t => String c h :: t
        end
  end.

(** Every array of strings a cell holds: its source, the text of its streams
    and the entries of its mime bundles. *)
Definition output_arrays (o : output) : list multiline :=
  match o with
  | stream _ t => [t]
  | display_data d => map snd d
  end.

Definition cell_arrays (c : cell) : list multiline :=
  cell_source c :: flat_map output_arrays (cell_outputs c).

Definition notebook_arrays (nb : notebook) : list multiline :=
  flat_map cell_arrays (cells nb).

Definition is_split_by_lines (m : multiline) : bool :=
  if list_eq_dec string_dec (splitlines_keepends (join m)) m then true else false.

(** The arrays that are rendered as markdown or handed to a magic: cell
    sources and markdown blocks, streams left out. *)
Definition cell_markdown_arrays (c : cell) : list multiline :=
  cell_source c :: markdown_blocks c.

(** A control character other than the line feed. *)
Definition is_control (c : ascii) : bool :=
  let n := nat_of_ascii c in
  (Nat.ltb n 32 && negb (Nat.eqb n 10)) || Nat.eqb n 127.

Fixpoint has_control (s : string) : bool :=
  match s with
  | EmptyString => false
  | String c s' => is_control c || has_control s'
  end.

(** ** Code samples in answers *)

Definition fence : string := "```".

(** The info string of a line that is a code fence. *)
Definition fence_info (l : string) : option string :=
  Str.strip_prefix fence (Str.strip Str.is_space l).

(** Pairs the fences of a block of lines.  [cur] is the info string of the
    fence that is open, if one is.  The result is the info strings of the
    samples in order, or nothing when a fence stays open at the end or a
    closing fence carries an info string. *)
Fixpoint fenced_samples (cur : option string) (ls : list string)
  : option (list string) :=
  match ls with
  | [] => match cur with None => Some [] | Some _ => None end
  | l :: ls' =>
      match fence_info l, cur with
      | None, _ => fenced_samples cur ls'
      | Some info, None => fenced_samples (Some info) ls'
      | Some info, Some lang =>
          if String.eqb info ""
          then option_map (cons lang) (fenced_samples None ls')
          else None
      end
  end.

Definition sample_languages : list string := [ "python"; "yaml" ].

Definition samples_well_fenced (c : cell) : bool :=
  match fenced_samples None (answer_lines c) with
  | Some langs =>
      forallb (fun l => existsb (String.eqb l) sample_languages) langs
  | None => false
  end.

(** ** Where citations stand and what they name *)

Definition cites_only_at_end (c : cell) : bool :=
  forallb (fun l => negb (Str.starts sources_marker l))
          (removelast (answer_lines c)).

(** The backslash, single and as some answers double it. *)
Definition bs : string := String (ascii_of_nat 92) EmptyString.

Definition docs_source (sep : string) : string :=
  sep ++ "msticpy" ++ sep ++ "docs" ++ sep ++ "source" ++ sep.

Definition is_bare_name (f : string) : bool :=
  Nat.eqb (Str.occurrences bs f) 0.

Definition is_docs_source_path (f : string) : bool :=
  Str.starts ("C:" ++ bs) f
  && negb (Nat.eqb (Str.occurrences (docs_source bs) f
                    + Str.occurrences (docs_source (bs ++ bs)) f) 0).

Definition cites_documentation (c : cell) : bool :=
  forallb (fun l => forallb (fun f => is_bare_name f || is_docs_source_path f)
                            (cited_files l))
          (answer_lines c).

(** One element of an array split by lines: not empty, and a line feed, if it
    has one, is its last character. *)
Definition is_line (l : string) : Prop :=
  l <> "" /\ forall a b, l = a ++ nl ++ b -> b = "".

(** * Facts about the string functions *)

Section StrFacts.

Import Str.

Lemma strip_prefix_app (p r : string) : strip_prefix p (p ++ r) = Some r.
Proof.
  induction p as [|a p IH]; simpl.
  - now destruct r.
  - now rewrite Ascii.eqb_refl.
Qed.

Lemma strip_prefix_inv (p : string) :
  forall s r, strip_prefix p s = Some r -> s = p ++ r.
Proof.
  induction p as [|a p IH]; intros s r H.
  - destruct s; simpl in H; now inversion H.
  - destruct s as [|b s]; simpl in H; [discriminate|].
    destruct (Ascii.eqb a b) eqn:E; [|discriminate].
    apply Ascii.eqb_eq in E; subst b.
    simpl; f_equal; now apply IH.
Qed.

Lemma starts_begins (p s : string) : starts p s = true <-> begins_with p s.
Proof.
  unfold starts, begins_with; split.
  - destruct (strip_prefix p s) as [r|] eqn:E; [|discriminate].
    intros _; exists r; now apply strip_prefix_inv.
  - intros [r ->]; now rewrite strip_prefix_app.
Qed.

Lemma starts_false (p s : string) : starts p s = false -> ~ begins_with p s.
Proof.
  intros H Hb; apply starts_begins in Hb; congruence.
Qed.

Lemma ends_unfold (suf s : string) :
  ends suf s
  = (String.eqb s suf
     || match s with EmptyString => false | String _ s' => ends suf s' end).
Proof. now destruct s. Qed.

Lemma ends_sound (suf : string) : forall s, ends suf s = true -> ends_with suf s.
Proof.
  induction s as [|c s IH]; rewrite ends_unfold; intros H;
    apply orb_true_iff in H as [H|H].
  - apply String.eqb_eq in H; subst; now exists "".
  - discriminate.
  - apply String.eqb_eq in H; subst; now exists "".
  - destruct (IH H) as [r ->]; now exists (String c r).
Qed.

Lemma ends_complete (suf : string) : forall r, ends suf (r ++ suf) = true.
Proof.
  induction r as [|c r IH]; rewrite ends_unfold; simpl.
  - now rewrite String.eqb_refl.
  - rewrite IH; apply orb_true_r.
Qed.

Lemma ends_ends_with (suf s : string) : ends suf s = true <-> ends_with suf s.
Proof.
  split; [apply ends_sound | intros [r ->]; apply ends_complete].
Qed.

Lemma occurrences_unfold (pat s : string) :
  occurrences pat s
  = (if starts pat s then 1 else 0)
    + match s with EmptyString => 0 | String _ s' => occurrences pat s' end.
Proof. now destruct s. Qed.

(** A pattern that is counted nowhere occurs nowhere. *)
Lemma occurrences_zero (pat : string) :
  forall s, occurrences pat s = 0 -> ~ contains pat s.
Proof.
  induction s as [|c s IH]; rewrite occurrences_unfold; intros H [a [b E]].
  - destruct (starts pat "") eqn:S0; [discriminate|].
    destruct a; [|discriminate].
    apply (starts_false _ _ S0); exists b; exact E.
  - destruct (starts pat (String c s)) eqn:S0; [discriminate|].
    destruct a as [|c' a].
    + apply (starts_false _ _ S0); exists b; exact E.
    + simpl in E; injection E as _ E.
      apply IH; [exact H | now exists a, b].
Qed.

(** And a pattern that is counted does occur. *)
Lemma occurrences_pos (pat : string) :
  forall s, 0 < occurrences pat s -> contains pat s.
Proof.
  induction s as [|c s IH]; rewrite occurrences_unfold; intros H.
  - destruct (starts pat "") eqn:S0; [|inversion H].
    apply starts_begins in S0 as [r E]; exists "", r; exact E.
  - destruct (starts pat (String c s)) eqn:S0.
    + apply starts_begins in S0 as [r E]; exists "", r; exact E.
    + destruct (IH H) as [a [b ->]]; now exists (String c a), b.
Qed.

Lemma after_contains (pat : string) :
  forall s r, after pat s = Some r -> exists a, s = a ++ pat ++ r.
Proof.
  induction s as [|c s IH]; intros r H.
  - simpl in H.
    destruct (strip_prefix pat "") as [r'|] eqn:E; [|discriminate].
    injection H as ->; apply strip_prefix_inv in E; now exists "".
  - simpl in H.
    destruct (strip_prefix pat (String c s)) as [r'|] eqn:E.
    + injection H as ->; apply strip_prefix_inv in E; now exists "".
    + destruct (IH _ H) as [a ->]; now exists (String c a).
Qed.

End StrFacts.

(** * Facts about lists *)

Section ListFacts.

Context {A : Type}.

Lemma forallb_In (f : A -> bool) (l : list A) :
  forallb f l = true -> forall x, In x l -> f x = true.
Proof. intros H x Hx; now apply (proj1 (forallb_forall f l) H). Qed.

Lemma map_Some_inj (l l' : list A) : map Some l = map Some l' -> l = l'.
Proof.
  revert l'; induction l as [|a l IH]; intros [|b l'] H;
    simpl in H; try discriminate; [reflexivity|].
  injection H as -> H; f_equal; now apply IH.
Qed.

Lemma adjacent_cons (a b : A) (l : list A) :
  adjacent (a :: b :: l) = (a, b) :: adjacent (b :: l).
Proof. reflexivity. Qed.

End ListFacts.

(** A list of numbers that grows at every step is sorted. *)
Lemma adjacent_lt_Sorted (l : list nat) :
  (forall a b, In (a, b) (adjacent l) -> a < b) -> Sorted lt l.
Proof.
  induction l as [|a [|b l] IH]; intros H.
  - constructor.
  - repeat constructor.
  - constructor.
    + apply IH; intros x y Hxy; apply H; rewrite adjacent_cons; now right.
    + constructor; apply H; rewrite adjacent_cons; now left.
Qed.

(** * Facts about the readers of the notebook *)

Lemma markdown_of_inv (o : output) (m : multiline) :
  markdown_of o = Some m -> o = display_data [("text/markdown", m)].
Proof.
  destruct o as [n t|d]; simpl; [discriminate|].
  destruct d as [|[mime x] [|e d]]; try discriminate.
  destruct (String.eqb mime "text/markdown") eqn:E; [|discriminate].
  apply String.eqb_eq in E; subst mime.
  now intros [= ->].
Qed.

Lemma question_then_answer_sound (c : cell) :
  question_then_answer c = true ->
  exists q a,
    display_blocks c
    = [display_data [("text/markdown", q)]; display_data [("text/markdown", a)]]
    /\ join q = nl ++ rendered q
    /\ Str.begins_with question_marker (rendered q)
    /\ join a = nl ++ rendered a
    /\ Str.begins_with answer_marker (rendered a).
Proof.
  unfold question_then_answer.
  destruct (display_blocks c) as [|o1 [|o2 [|o3 os]]]; try discriminate.
  destruct (markdown_of o1) as [q|] eqn:E1; [|discriminate].
  destruct (markdown_of o2) as [a|] eqn:E2; [|discriminate].
  intros H.
  apply andb_true_iff in H as [H Ha].
  apply andb_true_iff in H as [H Hja].
  apply andb_true_iff in H as [Hjq Hq].
  apply markdown_of_inv in E1, E2; subst o1 o2.
  exists q, a; split; [reflexivity|].
  split; [now apply String.eqb_eq|].
  split; [now apply starts_begins|].
  split; [now apply String.eqb_eq | now apply starts_begins].
Qed.

Lemma echoes_question_sound (c : cell) :
  echoes_question c = true -> question_text c = Some (ask_body c).
Proof.
  unfold echoes_question.
  destruct (question_text c) as [q|]; [|discriminate].
  intros H; apply String.eqb_eq in H; now subst.
Qed.

Lemma cites_only_rst_sound (c : cell) :
  cites_only_rst c = true ->
  forall l, In l (answer_lines c) -> Str.begins_with sources_marker l ->
  forall f, In f (cited_files l) -> Str.ends_with ".rst" f.
Proof.
  intros H l Hl Hb f Hf.
  apply (forallb_In _ _ H) in Hl.
  apply starts_begins in Hb; rewrite Hb in Hl; simpl in Hl.
  apply ends_sound; exact (forallb_In _ _ Hl f Hf).
Qed.

Lemma silent_about_sound (pat : string) (c : cell) :
  silent_about pat c = true ->
  forall o, In o (cell_outputs c) -> ~ Str.contains pat (output_text o).
Proof.
  intros H o Ho.
  apply (forallb_In _ _ H) in Ho; unfold mentions in Ho.
  apply negb_true_iff, negb_false_iff, Nat.eqb_eq in Ho.
  now apply occurrences_zero.
Qed.

Lemma step_or_gap_sound (a b : nat) :
  step_or_gap (a, b) = true -> b = S a \/ (a = 7 /\ b = 9).
Proof.
  unfold step_or_gap; intros H; apply orb_true_iff in H as [H|H].
  - left; now apply Nat.eqb_eq.
  - right; apply andb_true_iff in H as [Ha Hb]; split; now apply Nat.eqb_eq.
Qed.

Lemma existsb_false_In {A : Type} (f : A -> bool) (l : list A) :
  existsb f l = false -> forall x, In x l -> f x = false.
Proof.
  induction l as [|a l IH]; simpl; intros H x Hx; [contradiction|].
  apply orb_false_iff in H as [Ha Hl].
  destruct Hx as [<-|Hx]; [exact Ha | now apply IH].
Qed.

Lemma not_mentioned (pat : string) (cs : list cell) :
  forallb (silent_about pat) cs = true ->
  forall c o, In c cs -> In o (cell_outputs c) ->
  ~ Str.contains pat (output_text o).
Proof.
  intros H c o Hc; apply silent_about_sound; exact (forallb_In _ _ H c Hc).
Qed.

Lemma is_python_statement_false (l : string) :
  is_python_statement l = false ->
  forall k, In k python_statement_starts ->
  ~ Str.begins_with k (Str.lstrip Str.is_space l).
Proof.
  intros H k Hk; apply starts_false.
  exact (existsb_false_In _ _ H k Hk).
Qed.

Lemma is_free_text_question_sound (q : string) :
  is_free_text_question q = true ->
  q <> "" /\ ~ Str.contains nl q /\ Str.ends_with "?" q
  /\ is_python_statement q = false.
Proof.
  unfold is_free_text_question; intros H.
  apply andb_true_iff in H as [H Hp].
  apply andb_true_iff in H as [H He].
  apply andb_true_iff in H as [Hn Hl].
  repeat split.
  - intros ->; discriminate.
  - apply occurrences_zero; now apply Nat.eqb_eq.
  - now apply ends_sound.
  - now apply negb_true_iff.
Qed.

Lemma load_or_question_sound (c : cell) :
  load_or_question c = true ->
  (exists m, classify c = LoadDirective m)
  \/ (exists q, classify c = AskInvocation q
                /\ q <> "" /\ ~ Str.contains nl q /\ Str.ends_with "?" q
                /\ is_python_statement q = false).
Proof.
  unfold load_or_question; destruct (classify c) as [m|q|]; intros H.
  - left; now exists m.
  - right; exists q; split; [reflexivity | now apply is_free_text_question_sound].
  - discriminate.
Qed.

Lemma renders_output_iff (c : cell) :
  renders_output c = true <-> cell_outputs c <> [].
Proof.
  unfold renders_output; destruct (cell_outputs c); split;
    congruence || discriminate.
Qed.

Lemma renders_iff_ask (cs : list cell) :
  forallb (fun c => Bool.eqb (renders_output c) (is_ask c)) cs = true ->
  forall c, In c cs -> cell_outputs c <> [] <-> is_ask c = true.
Proof.
  intros H c Hc.
  apply (forallb_In _ _ H), Bool.eqb_prop in Hc.
  rewrite <- Hc; symmetry; apply renders_output_iff.
Qed.

Lemma load_cells_silent (cs : list cell) :
  forallb (fun c => negb (loads_extension c) || negb (renders_output c)) cs
  = true ->
  forall c, In c cs -> loads_extension c = true -> cell_outputs c = [].
Proof.
  intros H c Hc Hl.
  apply (forallb_In _ _ H) in Hc; rewrite Hl in Hc; simpl in Hc.
  apply negb_true_iff in Hc; unfold renders_output in Hc.
  now destruct (cell_outputs c).
Qed.

(** * The notebook as recorded *)

Lemma RagAgent_cells_length : length (cells RagAgent) = 17.
Proof. reflexivity. Qed.

Lemma RagAgent_ask_cells :
  ask_cells RagAgent
  = [cell_3; cell_4; cell_5; cell_7; cell_8; cell_9; cell_10; cell_11;
     cell_12; cell_13; cell_14; cell_15; cell_16].
Proof. vm_compute; reflexivity. Qed.

Lemma RagAgent_code_cells : code_cells RagAgent = cell_2 :: ask_cells RagAgent.
Proof. vm_compute; reflexivity. Qed.

Lemma RagAgent_execution_counts :
  execution_counts RagAgent
  = map Some [16; 2; 3; 4; 5; 6; 7; 9; 10; 11; 12; 13; 14; 15].
Proof. reflexivity. Qed.

(** The blocks of every [%%ask] cell as the JSON records them: a blank line,
    then the marker. *)
Lemma RagAgent_question_blocks :
  forall c, In c (ask_cells RagAgent) ->
  question_block c = [nl; question_marker ++ " " ++ ask_body c].
Proof.
  intros c Hc.
  assert (H : forallb
                (fun c => if list_eq_dec string_dec (question_block c)
                               [nl; question_marker ++ " " ++ ask_body c]
                          then true else false)
                (ask_cells RagAgent) = true)
    by (vm_compute; reflexivity).
  apply (forallb_In _ _ H) in Hc.
  now destruct (list_eq_dec string_dec (question_block c) _).
Qed.

(** One citation is written as a code span, the one of cell 10. *)
Lemma RagAgent_code_span_entries :
  filter (Str.starts "`")
         (flat_map (fun c => flat_map source_entries (answer_lines c))
                   (ask_cells RagAgent))
  = source_entries (final_line cell_10).
Proof. vm_compute; reflexivity. Qed.

(** * What the notebook records *)

(** ** The answer given when the context does not suffice *)

(** C1.  The note above the Splunk question (cell 6) documents the sentinel
    UPDATE_CONTEXT, written with an underscore, as the response given when
    the retrieved context cannot answer the query.  The answer recorded for
    the Splunk question (cell 7) reads UPDATE CONTEXT, with a blank: it is not
    the documented literal, and that literal occurs in no output of the
    notebook. *)
Theorem insufficient_answer_is_not_the_sentinel :
  nth_error (cells RagAgent) 6 = Some cell_6
  /\ Str.occurrences ("`" ++ UPDATE_CONTEXT ++ "`") (join (cell_source cell_6)) = 1
  /\ nth_error (cells RagAgent) 7 = Some cell_7
  /\ is_ask cell_7 = true
  /\ ask_body cell_7
     = "Does the Splunk query provider support device code authentication?"
  /\ answer_text cell_7 = Some "UPDATE CONTEXT"
  /\ answer_text cell_7 <> Some UPDATE_CONTEXT
  /\ Str.occurrences UPDATE_CONTEXT (notebook_output_text RagAgent) = 0.
Proof.
  repeat split; try (vm_compute; reflexivity).
  vm_compute; discriminate.
Qed.

(** ** Question and Answer blocks *)

(** C2.  The notebook has 13 [%%ask] cells, and the outputs of each hold
    exactly two [display_data] blocks, both markdown and in this order: a
    block that begins with the Question marker and a block that begins with
    the Answer marker.  As recorded, the text of each block is one line feed,
    which markdown does not render, and then the text that begins with the
    marker. *)
Theorem ask_outputs_question_then_answer :
  length (ask_cells RagAgent) = 13
  /\ forall c, In c (ask_cells RagAgent) ->
     exists q a,
       display_blocks c
       = [display_data [("text/markdown", q)];
          display_data [("text/markdown", a)]]
       /\ join q = nl ++ rendered q
       /\ Str.begins_with question_marker (rendered q)
       /\ join a = nl ++ rendered a
       /\ Str.begins_with answer_marker (rendered a).
Proof.
  split; [reflexivity|].
  intros c Hc; apply question_then_answer_sound.
  revert c Hc; apply forallb_In; vm_compute; reflexivity.
Qed.

Lemma ask_outputs_question_then_answer_witness :
  exists q a,
    display_blocks cell_16
    = [display_data [("text/markdown", q)];
       display_data [("text/markdown", a)]]
    /\ join q = nl ++ rendered q
    /\ Str.begins_with question_marker (rendered q)
    /\ join a = nl ++ rendered a
    /\ Str.begins_with answer_marker (rendered a).
Proof.
  apply (proj2 ask_outputs_question_then_answer cell_16).
  rewrite RagAgent_ask_cells; simpl; tauto.
Defined.

(** ** The chunk count *)

(** C3.  The log line that reports the chunk count, Found 384 chunks., occurs
    once in the outputs of the whole notebook, in the stderr stream that is the
    first output of the first [%%ask] cell (cell 3); no other output of that
    cell and no output of any other cell mentions chunks at all. *)
Theorem chunk_count_reported_once :
  Str.occurrences "Found 384 chunks." (notebook_output_text RagAgent) = 1
  /\ Str.occurrences "chunk" (notebook_output_text RagAgent) = 1
  /\ nth_error (cells RagAgent) 3 = Some cell_3
  /\ hd_error (ask_cells RagAgent) = Some cell_3
  /\ (exists t rest,
        cell_outputs cell_3 = stream "stderr" t :: rest
        /\ Str.contains "Found 384 chunks." (join t)
        /\ forall o, In o rest -> ~ Str.contains "chunk" (output_text o))
  /\ forall c o,
       In c (others 3 (cells RagAgent)) -> In o (cell_outputs c) ->
       ~ Str.contains "chunk" (output_text o).
Proof.
  repeat split; try (vm_compute; reflexivity).
  - eexists _, _; split; [reflexivity|]; split.
    + apply occurrences_pos; vm_compute; lia.
    + intros o Ho; apply occurrences_zero.
      apply Nat.eqb_eq, negb_false_iff, negb_true_iff.
      revert o Ho; apply forallb_In; vm_compute; reflexivity.
  - apply not_mentioned; vm_compute; reflexivity.
Qed.

Lemma chunk_count_reported_once_witness :
  ~ Str.contains "chunk" (output_text (nth 1 (cell_outputs cell_12) (stream "" []))).
Proof.
  apply (proj2 (proj2 (proj2 (proj2 (proj2 chunk_count_reported_once))))
           cell_12).
  - vm_compute; tauto.
  - simpl; tauto.
Defined.

(** ** Execution order *)

(** C4.  The [%%ask] cells were run in document order: their execution counts
    are strictly increasing, each one more than the previous [%%ask] cell's
    but for one gap, where 9 follows 7.  The extension-load cell, the first
    code cell of the document, carries the count 16, above every [%%ask]
    cell's: it was run again after them.  The load cell and the [%%ask] cells
    are all the code cells there are, and none of them carries the count 8. *)
Theorem ask_cells_run_in_order_with_one_gap :
  Sorted lt (counts (ask_cells RagAgent))
  /\ length (counts (ask_cells RagAgent)) = length (ask_cells RagAgent)
  /\ (forall a b, In (a, b) (adjacent (counts (ask_cells RagAgent))) ->
      b = S a \/ (a = 7 /\ b = 9))
  /\ In (7, 9) (adjacent (counts (ask_cells RagAgent)))
  /\ hd_error (code_cells RagAgent) = Some cell_2
  /\ count_of cell_2 = Some 16
  /\ (forall n, In n (counts (ask_cells RagAgent)) -> n < 16)
  /\ code_cells RagAgent = cell_2 :: ask_cells RagAgent
  /\ ~ In (Some 8) (execution_counts RagAgent).
Proof.
  assert (Hstep : forall a b,
             In (a, b) (adjacent (counts (ask_cells RagAgent))) ->
             b = S a \/ (a = 7 /\ b = 9)).
  { intros a b Hab; apply step_or_gap_sound.
    revert Hab; generalize (a, b); apply forallb_In; vm_compute; reflexivity. }
  repeat split; try (vm_compute; reflexivity).
  - apply adjacent_lt_Sorted; intros a b Hab.
    destruct (Hstep a b Hab) as [->|[-> ->]]; lia.
  - exact Hstep.
  - vm_compute; tauto.
  - intros n Hn; apply Nat.ltb_lt.
    revert n Hn; apply forallb_In; vm_compute; reflexivity.
  - rewrite RagAgent_execution_counts; intros H8.
    apply in_map_iff in H8 as [n [E Hn]]; injection E as ->.
    simpl in Hn; intuition discriminate.
Qed.

Lemma ask_cells_run_in_order_with_one_gap_witness :
  3 = S 2 \/ (2 = 7 /\ 3 = 9).
Proof.
  apply (proj1 (proj2 (proj2 ask_cells_run_in_order_with_one_gap)) 2 3).
  vm_compute; tauto.
Defined.

(** C4 as first stated, that each code cell carries the count of the previous
    one plus one, fails twice: 2 follows 16, and 9 follows 7. *)
Lemma code_cells_not_executed_sequentially :
  In (16, 2) (adjacent [16; 2; 3; 4; 5; 6; 7; 9; 10; 11; 12; 13; 14; 15])
  /\ In (7, 9) (adjacent [16; 2; 3; 4; 5; 6; 7; 9; 10; 11; 12; 13; 14; 15])
  /\ ~ executed_sequentially RagAgent.
Proof.
  split; [simpl; tauto|]; split; [simpl; tauto|].
  intros [l [Hl Hstep]].
  rewrite RagAgent_execution_counts in Hl.
  apply map_Some_inj in Hl; subst l.
  specialize (Hstep 16 2); simpl in Hstep.
  assert (H : 2 = 17) by (apply Hstep; now left).
  discriminate H.
Qed.

(** ** Citations *)

(** C5.  Some answers end in a citation and one does not: the final line of
    the answer of the first [%%ask] cell begins with the Sources marker and
    lists a documentation file, a path under docs\source that ends in .rst;
    the answer to the Splunk question, the one that reports insufficient
    context, contains no Sources marker anywhere. *)
Theorem answers_sometimes_cite_sources :
  (exists c,
     In c (ask_cells RagAgent)
     /\ Str.begins_with sources_marker (final_line c)
     /\ cited_files (final_line c) <> []
     /\ Forall (fun f => Str.contains "\docs\source" f /\ Str.ends_with ".rst" f)
               (cited_files (final_line c)))
  /\ (exists c,
        In c (ask_cells RagAgent)
        /\ ask_body c
           = "Does the Splunk query provider support device code authentication?"
        /\ answer_text c = Some "UPDATE CONTEXT"
        /\ ~ Str.contains sources_marker (join (answer_block c))).
Proof.
  split.
  - exists cell_3; repeat split.
    + rewrite RagAgent_ask_cells; now left.
    + apply starts_begins; vm_compute; reflexivity.
    + vm_compute; discriminate.
    + apply Forall_forall; intros f Hf; split.
      * apply occurrences_pos, Nat.ltb_lt.
        revert f Hf; apply forallb_In; vm_compute; reflexivity.
      * apply ends_sound.
        revert f Hf; apply forallb_In; vm_compute; reflexivity.
  - exists cell_7; repeat split; try (vm_compute; reflexivity).
    + rewrite RagAgent_ask_cells; simpl; tauto.
    + apply occurrences_zero; vm_compute; reflexivity.
Qed.

(** C9.  In every answer, each occurrence of the Sources marker starts a line,
    and every entry such a line lists (entries are separated by commas; one
    answer wraps its entry in the backticks of a code span) ends in .rst.
    Twelve of the thirteen answers carry such a line, seventeen entries in
    all. *)
Theorem cited_files_are_rst :
  (forall c, In c (ask_cells RagAgent) ->
   forall l, In l (answer_lines c) -> Str.begins_with sources_marker l ->
   forall f, In f (cited_files l) -> Str.ends_with ".rst" f)
  /\ (forall c, In c (ask_cells RagAgent) ->
      Str.occurrences sources_marker (join (answer_block c))
      = length (filter (Str.starts sources_marker) (answer_lines c)))
  /\ length (filter (fun c => Str.starts sources_marker (final_line c))
                    (ask_cells RagAgent)) = 12
  /\ length (flat_map (fun c => flat_map cited_files (answer_lines c))
                      (ask_cells RagAgent)) = 17.
Proof.
  repeat split; try (vm_compute; reflexivity).
  - intros c Hc; apply cites_only_rst_sound.
    revert c Hc; apply forallb_In; vm_compute; reflexivity.
  - intros c Hc; apply Nat.eqb_eq; fold (sources_at_line_start c).
    revert c Hc; apply forallb_In; vm_compute; reflexivity.
Qed.

Lemma cited_files_are_rst_witness :
  Str.ends_with ".rst" "PluginFramework.rst".
Proof.
  apply (proj1 cited_files_are_rst cell_9
           ltac:(rewrite RagAgent_ask_cells; simpl; tauto)
           "Sources: WritingDataProviders.rst, PluginFramework.rst, ExtendingMsticpy.rst").
  - vm_compute; tauto.
  - now exists " WritingDataProviders.rst, PluginFramework.rst, ExtendingMsticpy.rst".
  - vm_compute; tauto.
Defined.

(** ** The code cells *)



(** C7.  No cell holds Python that computes anything.  Every code cell is
    either a load directive (there is one) or an [%%ask] invocation whose body
    is one non-empty line of plain words ending in a question mark; and no
    source line of any cell, markdown cells included, starts a definition, an
    import, a loop or another Python statement. *)
Theorem code_cells_only_invoke_magics :
  (forall c, In c (code_cells RagAgent) ->
     (exists m, classify c = LoadDirective m)
     \/ (exists q, classify c = AskInvocation q
                   /\ q <> "" /\ ~ Str.contains nl q /\ Str.ends_with "?" q
                   /\ is_python_statement q = false))
  /\ length (filter is_load_directive (code_cells RagAgent)) = 1
  /\ length (filter is_ask (code_cells RagAgent)) = 13
  /\ length (code_cells RagAgent) = 14
  /\ forall c l, In c (cells RagAgent) -> In l (cell_source c) ->
     forall k, In k python_statement_starts ->
     ~ Str.begins_with k (Str.lstrip Str.is_space l).
Proof.
  repeat split; try (vm_compute; reflexivity).
  - intros c Hc; apply load_or_question_sound.
    revert c Hc; apply forallb_In; vm_compute; reflexivity.
  - intros c l Hc Hl; apply is_python_statement_false, negb_true_iff.
    revert l Hl; apply forallb_In.
    revert c Hc; apply forallb_In; vm_compute; reflexivity.
Qed.

Lemma code_cells_only_invoke_magics_witness :
  (exists m, classify cell_4 = LoadDirective m)
  \/ (exists q, classify cell_4 = AskInvocation q
                /\ q <> "" /\ ~ Str.contains nl q /\ Str.ends_with "?" q
                /\ is_python_statement q = false).
Proof.
  apply (proj1 code_cells_only_invoke_magics cell_4).
  rewrite RagAgent_code_cells, RagAgent_ask_cells; simpl; tauto.
Defined.

(** ** The question is echoed *)

(** C8.  For every [%%ask] cell the text that follows the Question marker and
    its blank in the first markdown block is, character for character, the
    text that follows the magic line in the cell's source. *)
Theorem question_block_echoes_source :
  forall c, In c (ask_cells RagAgent) -> question_text c = Some (ask_body c).
Proof.
  intros c Hc; apply echoes_question_sound.
  revert c Hc; apply forallb_In; vm_compute; reflexivity.
Qed.

Lemma question_block_echoes_source_witness :
  question_text cell_4
  = Some "How do I connect to the M365 Defender query provider?".
Proof.
  apply (question_block_echoes_source cell_4).
  rewrite RagAgent_ask_cells; simpl; tauto.
Defined.

(** ** Which cells render output *)

(** C10.  A cell of the notebook has outputs exactly when it is an [%%ask]
    cell: the extension-load cell has none, each of the 13 [%%ask] cells has
    some.  The first [%%ask] cell starts with a logging stream; the outputs of
    all later ones are markdown blocks only. *)
Theorem only_ask_cells_render_output :
  (forall c, In c (code_cells RagAgent) -> loads_extension c = true ->
   cell_outputs c = [])
  /\ (forall c, In c (cells RagAgent) ->
      cell_outputs c <> [] <-> is_ask c = true)
  /\ length (ask_cells RagAgent) = 13
  /\ exists c rest,
       ask_cells RagAgent = c :: rest
       /\ existsb is_stream (cell_outputs c) = true
       /\ forall c', In c' rest ->
          forallb is_markdown_block (cell_outputs c') = true.
Proof.
  split; [|split; [|split]].
  - apply load_cells_silent; vm_compute; reflexivity.
  - apply renders_iff_ask; vm_compute; reflexivity.
  - reflexivity.
  - eexists _, _; split; [apply RagAgent_ask_cells|]; split.
    + vm_compute; reflexivity.
    + apply forallb_In; vm_compute; reflexivity.
Qed.

Lemma only_ask_cells_render_output_witness :
  cell_outputs cell_2 = [].
Proof.
  apply (proj1 only_ask_cells_render_output cell_2).
  - rewrite RagAgent_code_cells; now left.
  - vm_compute; reflexivity.
Defined.

(** * Further properties of the recorded notebook *)

(** ** Arrays are texts split at line feeds *)

Lemma join_cons (x : string) (xs : multiline) : join (x :: xs) = x ++ join xs.
Proof.
  unfold join; destruct xs as [|y ys]; simpl; [|reflexivity].
  induction x as [|c x IH]; simpl; [reflexivity | now rewrite <- IH].
Qed.

(** Splitting loses nothing: the pieces put together are the text. *)
Lemma join_splitlines_keepends (s : string) : join (splitlines_keepends s) = s.
Proof.
  induction s as [|c s IH]; [reflexivity|]; simpl.
  destruct (Ascii.eqb c (ascii_of_nat 10)).
  - rewrite join_cons, IH; reflexivity.
  - destruct (splitlines_keepends s) as [|h t].
    + simpl in IH; subst s; reflexivity.
    + rewrite join_cons in *; simpl; now rewrite IH.
Qed.

Lemma is_line_feed : is_line nl.
Proof.
  split; [discriminate|]; intros a b E.
  destruct a as [|c a]; simpl in E.
  - now injection E as <-.
  - injection E as _ E; destruct a; discriminate E.
Qed.

Lemma is_line_single (c : ascii) : Ascii.eqb c (ascii_of_nat 10) = false ->
  is_line (String c "").
Proof.
  intros Hc; split; [discriminate|]; intros a b E.
  destruct a as [|c' a]; simpl in E.
  - injection E as -> _; discriminate Hc.
  - injection E as _ E; destruct a; discriminate E.
Qed.

Lemma is_line_cons (c : ascii) (h : string) :
  Ascii.eqb c (ascii_of_nat 10) = false -> is_line h -> is_line (String c h).
Proof.
  intros Hc [_ Hh]; split; [discriminate|]; intros a b E.
  destruct a as [|c' a]; simpl in E.
  - injection E as -> _; discriminate Hc.
  - injection E as _ E; exact (Hh a b E).
Qed.

(** Every piece is one line. *)
Lemma splitlines_keepends_lines (s : string) :
  Forall is_line (splitlines_keepends s).
Proof.
  induction s as [|c s IH]; simpl; [constructor|].
  destruct (Ascii.eqb c (ascii_of_nat 10)) eqn:Hc.
  - apply Ascii.eqb_eq in Hc; subst c.
    constructor; [exact is_line_feed | exact IH].
  - destruct (splitlines_keepends s) as [|h t].
    + constructor; [now apply is_line_single | constructor].
    + inversion IH as [|? ? Hh Ht]; subst.
      constructor; [now apply is_line_cons | exact Ht].
Qed.

Lemma is_split_by_lines_sound (m : multiline) :
  is_split_by_lines m = true ->
  splitlines_keepends (join m) = m /\ Forall is_line m.
Proof.
  unfold is_split_by_lines.
  destruct (list_eq_dec string_dec (splitlines_keepends (join m)) m) as [E|];
    [intros _ | discriminate].
  split; [exact E|].
  rewrite <- E; apply splitlines_keepends_lines.
Qed.

(** X1.  Every array of strings in the notebook (the source of each cell, the
    text of each stream, each markdown block; 44 in all) is its text split at
    line feeds, the feeds kept: splitting the joined text gives the array back,
    so no element is empty and a line feed stands only at the end of an
    element. *)
Theorem arrays_are_split_by_lines :
  forall m, In m (notebook_arrays RagAgent) ->
  splitlines_keepends (join m) = m /\ Forall is_line m.
Proof.
  intros m Hm; apply is_split_by_lines_sound.
  revert m Hm; apply forallb_In; vm_compute; reflexivity.
Qed.

Lemma arrays_are_split_by_lines_witness :
  splitlines_keepends (join (cell_source cell_2)) = cell_source cell_2
  /\ Forall is_line (cell_source cell_2).
Proof.
  apply (arrays_are_split_by_lines (cell_source cell_2)).
  unfold notebook_arrays; apply in_flat_map; exists cell_2; split.
  - simpl; tauto.
  - now left.
Defined.

(** ** Code samples *)

Lemma samples_well_fenced_sound (c : cell) :
  samples_well_fenced c = true ->
  exists langs,
    fenced_samples None (answer_lines c) = Some langs
    /\ forall l, In l langs -> In l sample_languages.
Proof.
  unfold samples_well_fenced.
  destruct (fenced_samples None (answer_lines c)) as [langs|]; [|discriminate].
  intros H; exists langs; split; [reflexivity|].
  intros l Hl; apply (forallb_In _ _ H) in Hl.
  apply existsb_exists in Hl as [k [Hk E]].
  apply String.eqb_eq in E; now subst.
Qed.

(** X2.  In every answer the code fences pair up: each fence that opens a
    sample is followed by a bare closing fence, none stays open at the end of
    the answer, and every sample is labelled python or yaml. *)
Theorem answer_samples_are_fenced :
  forall c, In c (ask_cells RagAgent) ->
  exists langs,
    fenced_samples None (answer_lines c) = Some langs
    /\ forall l, In l langs -> In l sample_languages.
Proof.
  intros c Hc; apply samples_well_fenced_sound.
  revert c Hc; apply forallb_In; vm_compute; reflexivity.
Qed.

Lemma answer_samples_are_fenced_witness :
  exists langs,
    fenced_samples None (answer_lines cell_12) = Some langs
    /\ forall l, In l langs -> In l sample_languages.
Proof.
  apply (answer_samples_are_fenced cell_12).
  rewrite RagAgent_ask_cells; simpl; tauto.
Defined.

(** ** Questions *)

(** X3.  No question is asked twice: the bodies of the thirteen [%%ask] cells
    are pairwise distinct. *)
Theorem questions_are_distinct :
  NoDup (map ask_body (ask_cells RagAgent))
  /\ length (map ask_body (ask_cells RagAgent)) = 13.
Proof.
  split; [|reflexivity].
  assert (E : nodup string_dec (map ask_body (ask_cells RagAgent))
              = map ask_body (ask_cells RagAgent))
    by (vm_compute; reflexivity).
  rewrite <- E; apply NoDup_nodup.
Qed.

(** ** Citations *)

(** X4.  A citation only ever closes an answer: in no answer does a line
    before the last one begin with the Sources marker. *)
Theorem sources_only_on_final_line :
  forall c, In c (ask_cells RagAgent) ->
  forall l, In l (removelast (answer_lines c)) ->
  ~ Str.begins_with sources_marker l.
Proof.
  intros c Hc l Hl; apply starts_false, negb_true_iff.
  revert l Hl; apply forallb_In; fold (cites_only_at_end c).
  revert c Hc; apply forallb_In; vm_compute; reflexivity.
Qed.

Lemma sources_only_on_final_line_witness :
  ~ Str.begins_with sources_marker "1. A `QueryProvider` instance.".
Proof.
  apply (sources_only_on_final_line cell_3).
  - rewrite RagAgent_ask_cells; now left.
  - vm_compute; tauto.
Defined.

Lemma is_docs_source_path_sound (f : string) :
  is_docs_source_path f = true ->
  Str.begins_with ("C:" ++ bs) f
  /\ (Str.contains (docs_source bs) f
      \/ Str.contains (docs_source (bs ++ bs)) f).
Proof.
  unfold is_docs_source_path; intros H.
  apply andb_true_iff in H as [Hs Ho].
  split; [now apply starts_begins|].
  apply negb_true_iff, Nat.eqb_neq in Ho.
  destruct (Nat.eq_dec (Str.occurrences (docs_source bs) f) 0) as [E|E].
  - right; apply occurrences_pos; lia.
  - left; apply occurrences_pos; lia.
Qed.

Lemma cites_documentation_sound (c : cell) :
  cites_documentation c = true ->
  forall l, In l (answer_lines c) -> forall f, In f (cited_files l) ->
  ~ Str.contains bs f
  \/ (Str.begins_with ("C:" ++ bs) f
      /\ (Str.contains (docs_source bs) f
          \/ Str.contains (docs_source (bs ++ bs)) f)).
Proof.
  intros H l Hl f Hf.
  apply (forallb_In _ _ H) in Hl; apply (forallb_In _ _ Hl) in Hf.
  apply orb_true_iff in Hf as [Hb|Hp].
  - left; apply occurrences_zero; now apply Nat.eqb_eq.
  - right; now apply is_docs_source_path_sound.
Qed.

(** X5.  Every cited file is either a bare file name, with no backslash in it,
    or a path on drive C: that runs through msticpy, docs, source, the
    backslashes between them written single or doubled. *)
Theorem citations_name_documentation :
  forall c, In c (ask_cells RagAgent) ->
  forall l, In l (answer_lines c) -> forall f, In f (cited_files l) ->
  ~ Str.contains bs f
  \/ (Str.begins_with ("C:" ++ bs) f
      /\ (Str.contains (docs_source bs) f
          \/ Str.contains (docs_source (bs ++ bs)) f)).
Proof.
  intros c Hc; apply cites_documentation_sound.
  revert c Hc; apply forallb_In; vm_compute; reflexivity.
Qed.

Lemma citations_name_documentation_witness :
  ~ Str.contains bs "PluginFramework.rst"
  \/ (Str.begins_with ("C:" ++ bs) "PluginFramework.rst"
      /\ (Str.contains (docs_source bs) "PluginFramework.rst"
          \/ Str.contains (docs_source (bs ++ bs)) "PluginFramework.rst")).
Proof.
  apply (citations_name_documentation cell_9
           ltac:(rewrite RagAgent_ask_cells; simpl; tauto)
           "Sources: WritingDataProviders.rst, PluginFramework.rst, ExtendingMsticpy.rst").
  - vm_compute; tauto.
  - vm_compute; tauto.
Defined.

(** ** Control characters *)

(** X6.  Terminal escapes stay in the log: no cell source and no markdown
    block holds a control character other than line feeds, while the stderr
    stream of the first [%%ask] cell holds three escape characters, the only
    ones in the outputs. *)
Theorem escapes_only_in_stream :
  (forall c m l,
     In c (cells RagAgent) -> In m (cell_markdown_arrays c) -> In l m ->
     has_control l = false)
  /\ Str.occurrences esc (notebook_output_text RagAgent) = 3
  /\ exists t rest,
       cell_outputs cell_3 = stream "stderr" t :: rest
       /\ Str.occurrences esc (join t) = 3.
Proof.
  split; [|split].
  - intros c m l Hc Hm Hl; apply negb_true_iff.
    revert l Hl; apply forallb_In.
    revert m Hm; apply forallb_In.
    revert c Hc; apply forallb_In; vm_compute; reflexivity.
  - vm_compute; reflexivity.
  - eexists _, _; split; [reflexivity | vm_compute; reflexivity].
Qed.

Lemma escapes_only_in_stream_witness :
  has_control "%reload_ext msticpy.aiagents.mp_docs_rag_magic" = false.
Proof.
  apply (proj1 escapes_only_in_stream cell_2 (cell_source cell_2)).
  - simpl; tauto.
  - now left.
  - simpl; tauto.
Defined.

